(** * MeloTTS-Render: the request-handling lifecycle of [main.py]

    A shallow embedding of the FastAPI application in [main.py]: the two
    module globals [model_instance] and [loading_error], the startup hook
    [load_model], and the two route handlers [read_root] (GET /) and
    [generate_speech] (POST /tts).

    The collaborators the module only calls -- [torch.cuda.is_available],
    the [TTS] constructor, [TTS.synthesize], [soundfile.write] and the
    process environment -- are parameters of the development: each call is
    recorded in a trace and may return a value or raise.

    [load_model], [read_root] and [generate_speech] are stated for a
    process whose stdout takes every line it is given.
    [generate_speech_on] is the synthesis handler on any stdout, where a
    [print] may raise; on a stdout that takes every line it is
    [generate_speech]. *)

From Stdlib Require Import String Ascii ZArith List Bool Lia DecimalString.
From Stdlib.Strings Require Import Byte.
Import ListNotations.
Open Scope Z_scope.
Open Scope list_scope.
Open Scope string_scope.

(** ** Python values *)

(** [bool(s)] for a [str]: only the empty string is falsy. *)
Definition bool_str (s : string) : bool :=
  match s with
  | EmptyString => false
  | String _ _ => true
  end.

(** [bool(x)] for [x : Optional[str]]: [None] and the empty string are
    falsy. *)
Definition bool_opt_str (x : option string) : bool :=
  match x with
  | None => false
  | Some s => bool_str s
  end.

(** [f"{x}"] for [x : Optional[str]]. *)
Definition format_opt_str (x : option string) : string :=
  match x with
  | None => "None"
  | Some s => s
  end.

(** [s[:n]]: the first [n] characters of [s]. A [string] is read as a
    sequence of characters, one [ascii] for one code point below 256. *)
Definition slice_to (n : nat) (s : string) : string := substring 0 n s.

(** A raised Python exception, as far as the module looks at it: its class
    name, whether [except Exception] matches it (false for
    [KeyboardInterrupt], [SystemExit], [GeneratorExit] and other direct
    [BaseException] subclasses), and [str(e)]. *)
Record PyExc : Type := mkPyExc {
  exc_class : string;
  isinstance_Exception : bool;
  exc_str : string
}.

(** What leaves a route handler by [raise]: the module's own
    [HTTPException(status_code, detail)], or a foreign exception that no
    [except] clause of the module matched. *)
Inductive raised : Type :=
| HTTPException (status_code : Z) (detail : string)
| Uncaught (e : PyExc).

(** ** The model handle

    [model_instance.hps.data.sampling_rate] is the only attribute path the
    module reads. *)
Record DataConfig : Type := mkDataConfig { sampling_rate : Z }.
Record HParams : Type := mkHParams { data : DataConfig }.
Record TTS : Type := mkTTS { hps : HParams }.

(** [bool(model_instance)]: [None] is falsy, a model object is truthy. *)
Definition bool_opt_TTS (x : option TTS) : bool :=
  match x with
  | None => false
  | Some _ => true
  end.

(** ** Request and response objects *)

(** [class TTSRequest(BaseModel)] *)
Record TTSRequest : Type := mkTTSRequest {
  text : string;
  voice_name : string
}.

(** The body [{text, voice_name?}] after validation: [voice_name] defaults
    to ["EN-US"]. *)
Definition TTSRequest_init (text : string) (voice_name : option string)
  : TTSRequest :=
  mkTTSRequest text (match voice_name with Some v => v | None => "EN-US" end).

(** [fastapi.Response]; [status_code] defaults to 200. *)
Record Response : Type := mkResponse {
  content : list byte;
  resp_status_code : Z;
  media_type : option string
}.

Definition Response_init (content : list byte) (media_type : string)
  : Response :=
  mkResponse content 200 (Some media_type).

(** A JSON object returned by a handler, keys in insertion order. *)
Definition dict : Type := list (string * string).

(** [io.BytesIO]: the bytes written so far and the stream position. *)
Record BytesIO : Type := mkBytesIO {
  buffer : list byte;
  position : nat
}.

Definition BytesIO_init : BytesIO := mkBytesIO [] 0.
Definition BytesIO_seek (b : BytesIO) (pos : nat) : BytesIO :=
  mkBytesIO (buffer b) pos.
Definition BytesIO_getvalue (b : BytesIO) : list byte := buffer b.

(** [s] occurs in [t]. *)
Definition contains (t s : string) : Prop :=
  exists pre post, t = pre ++ s ++ post.

(** ** Effects

    A computation runs in a world -- the module globals and the trace of
    what the process has printed and called so far -- and either returns
    or raises. *)
Inductive result (E A : Type) : Type :=
| Returns (a : A)
| Raises (e : E).
Arguments Returns {E A} a.
Arguments Raises {E A} e.

(** The two module-level globals. *)
Record Globals : Type := mkGlobals {
  model_instance : option TTS;
  loading_error : option string
}.

(** [model_instance = None; loading_error = None] at import time. *)
Definition initial_globals : Globals := mkGlobals None None.

(** The collaborators of the module. [ndarray] is the type of the sample
    array [synthesize] returns. [sf_write data samplerate format] gives the
    bytes [soundfile.write] leaves in a fresh file object. *)
Record Collaborators (ndarray : Type) : Type := mkCollaborators {
  os_environ : string -> option string;
  cuda_is_available : result PyExc bool;
  TTS_new : string -> string -> result PyExc TTS;
  synthesize : TTS -> string -> string -> result PyExc ndarray;
  sf_write : ndarray -> Z -> string -> result PyExc (list byte)
}.
Arguments os_environ {ndarray} _ _.
Arguments cuda_is_available {ndarray} _.
Arguments TTS_new {ndarray} _ _ _.
Arguments synthesize {ndarray} _ _ _ _.
Arguments sf_write {ndarray} _ _ _ _.

Section Program.

Context {ndarray : Type}.
Variable ext : Collaborators ndarray.

(** Observable events, oldest first in a trace. *)
Inductive event : Type :=
| Stdout (line : string)
| Traceback (e : PyExc)
| CallCudaIsAvailable
| CallTTS (language device : string)
| CallSynthesize (model : TTS) (text voice : string)
| CallSfWrite (data : ndarray) (samplerate : Z) (format : string).

Record World : Type := mkWorld {
  globals : Globals;
  trace : list event
}.

Definition M (E A : Type) : Type := World -> result E A * World.

Definition ret {E A} (a : A) : M E A := fun w => (Returns a, w).

Definition raise {E A} (e : E) : M E A := fun w => (Raises e, w).

Definition bind {E A B} (m : M E A) (k : A -> M E B) : M E B :=
  fun w =>
    match m w with
    | (Returns a, w') => k a w'
    | (Raises e, w') => (Raises e, w')
    end.

Notation "x <- m ;; k" := (bind m (fun x => k))
  (at level 61, m at next level, right associativity).
Notation "m ;; k" := (bind m (fun _ => k))
  (at level 61, right associativity).

Definition emit {E} (ev : event) : M E unit :=
  fun w => (Returns tt, mkWorld (globals w) (trace w ++ [ev])%list).

(** Reading a global. *)
Definition get_model_instance {E} : M E (option TTS) :=
  fun w => (Returns (model_instance (globals w)), w).
Definition get_loading_error {E} : M E (option string) :=
  fun w => (Returns (loading_error (globals w)), w).

(** Assigning a global (under [global model_instance, loading_error]). *)
Definition set_model_instance {E} (v : option TTS) : M E unit :=
  fun w =>
    (Returns tt, mkWorld (mkGlobals v (loading_error (globals w))) (trace w)).
Definition set_loading_error {E} (v : option string) : M E unit :=
  fun w =>
    (Returns tt, mkWorld (mkGlobals (model_instance (globals w)) v) (trace w)).

(** A call to a collaborator: recorded, then it returns or raises. *)
Definition call {A} (ev : event) (r : result PyExc A) : M PyExc A :=
  emit ev ;; fun w => (r, w).

(** [try: body  except Exception as e: handler e]. An exception the
    clause does not match leaves the statement; [propagate] says how the
    enclosing function's caller sees it. *)
Definition try_except_Exception {E A} (propagate : PyExc -> E)
    (body : M PyExc A) (handler : PyExc -> M E A) : M E A :=
  fun w =>
    match body w with
    | (Returns a, w') => (Returns a, w')
    | (Raises e, w') =>
        if isinstance_Exception e then handler e w'
        else (Raises (propagate e), w')
    end.

(** [print(line)] on a stdout that takes every line; [print_on] below is
    [print] on any stdout. *)
Definition print {E} (line : string) : M E unit := emit (Stdout line).

(** [traceback.print_exc()] inside [except ... as e]. *)
Definition traceback_print_exc {E} (e : PyExc) : M E unit :=
  emit (Traceback e).

(** [os.getenv(key, default)] *)
Definition os_getenv (key default : string) : string :=
  match os_environ ext key with
  | Some v => v
  | None => default
  end.

(** The prefix [f"[{os.getenv('RENDER_INSTANCE_ID', 'local')}]"] every log
    line of the module starts with. *)
Definition log_tag : string :=
  "[" ++ os_getenv "RENDER_INSTANCE_ID" "local" ++ "]".

(** [model_instance.<attr>] where the global may still be [None]. *)
Definition getattr_model_instance (attr : string) : M PyExc TTS :=
  mi <- get_model_instance ;;
  match mi with
  | Some model => ret model
  | None =>
      raise (mkPyExc "AttributeError" true
               ("'NoneType' object has no attribute '" ++ attr ++ "'"))
  end.

(** ** The startup hook *)

(** [@app.on_event("startup") async def load_model()] *)
Definition load_model : M PyExc unit :=
  try_except_Exception (fun e => e)
    (print (log_tag ++ " Starting model loading...") ;;
     available <- call CallCudaIsAvailable (cuda_is_available ext) ;;
     let device := if (available : bool) then "cuda" else "cpu" in
     print (log_tag ++ " Attempting to load MeloTTS model on device: "
              ++ device) ;;
     model <- call (CallTTS "en" device) (TTS_new ext "en" device) ;;
     set_model_instance (Some model) ;;
     print (log_tag ++ " MeloTTS model loaded successfully."))
    (fun e =>
     set_loading_error (Some ("Failed to load MeloTTS model: " ++ exc_str e)) ;;
     le <- get_loading_error ;;
     print (log_tag ++ " ERROR: " ++ format_opt_str le)).

(** ** The status endpoint *)

(** [@app.get("/") async def read_root()] *)
Definition read_root {E} : M E dict :=
  le <- get_loading_error ;;
  if bool_opt_str le then
    ret [("status", "error");
         ("message", "API is running but model failed to load: "
                       ++ format_opt_str le)]
  else
    mi <- get_model_instance ;;
    if negb (bool_opt_TTS mi) then
      ret [("status", "loading");
           ("message", "MeloTTS model is still loading or failed to load. Please try again shortly.")]
    else
      ret [("status", "ready");
           ("message", "MeloTTS API is running and model is loaded.")].

(** ** The synthesis endpoint *)

(** The [try] block of [generate_speech]. *)
Definition generate_speech_body (request : TTSRequest) : M PyExc Response :=
  print (log_tag ++ " Received TTS request for voice: "
           ++ voice_name request ++ ", text: '"
           ++ slice_to 50 (text request) ++ "...'") ;;
  model <- getattr_model_instance "synthesize" ;;
  audio_data_np <-
    call (CallSynthesize model (text request) (voice_name request))
         (synthesize ext model (text request) (voice_name request)) ;;
  let output_buffer := BytesIO_init in
  model' <- getattr_model_instance "hps" ;;
  let samplerate := sampling_rate (data (hps model')) in
  written <-
    call (CallSfWrite audio_data_np samplerate "WAV")
         (sf_write ext audio_data_np samplerate "WAV") ;;
  let output_buffer := mkBytesIO written (length written) in
  let output_buffer := BytesIO_seek output_buffer 0 in
  print (log_tag ++ " Successfully generated audio.") ;;
  ret (Response_init (BytesIO_getvalue output_buffer) "audio/wav").

(** The [except Exception as e] block of [generate_speech]. *)
Definition generate_speech_handler (e : PyExc) : M raised Response :=
  print (log_tag ++ " ERROR during TTS generation: " ++ exc_str e) ;;
  traceback_print_exc e ;;
  raise (HTTPException 500
           ("TTS generation failed: " ++ exc_str e
              ++ ". Check server logs for details.")).

(** [@app.post("/tts") async def generate_speech(request: TTSRequest)] *)
Definition generate_speech (request : TTSRequest) : M raised Response :=
  le <- get_loading_error ;;
  if bool_opt_str le then
    raise (HTTPException 503
             ("Service Unavailable: Model failed to load: "
                ++ format_opt_str le))
  else
    mi <- get_model_instance ;;
    if negb (bool_opt_TTS mi) then
      raise (HTTPException 503
               "Service Unavailable: MeloTTS model is still loading. Please try again shortly.")
    else if negb (bool_str (text request)) then
      raise (HTTPException 400 "Text input is required.")
    else
      try_except_Exception Uncaught
        (generate_speech_body request)
        generate_speech_handler.

(** ** Names for what a request leaves in the trace *)

(** The world [w] with [evs] appended to its trace. *)
Definition logged (w : World) (evs : list event) : World :=
  mkWorld (globals w) (trace w ++ evs)%list.

(** First log line of the [try] block. *)
Definition received_line (request : TTSRequest) : string :=
  log_tag ++ " Received TTS request for voice: "
    ++ voice_name request ++ ", text: '"
    ++ slice_to 50 (text request) ++ "...'".

(** Up to and including the call of [synthesize]. *)
Definition synthesize_events (request : TTSRequest) (model : TTS)
  : list event :=
  [Stdout (received_line request);
   CallSynthesize model (text request) (voice_name request)].

(** The call of [sf.write]. *)
Definition write_event (audio : ndarray) (model : TTS) : event :=
  CallSfWrite audio (sampling_rate (data (hps model))) "WAV".

(** Last log line of the [try] block. *)
Definition success_event : event :=
  Stdout (log_tag ++ " Successfully generated audio.").

(** What the [except] block logs. *)
Definition error_events (e : PyExc) : list event :=
  [Stdout (log_tag ++ " ERROR during TTS generation: " ++ exc_str e);
   Traceback e].

(** An event list holds a call of [synthesize]. *)
Definition is_synthesize_call (ev : event) : bool :=
  match ev with
  | CallSynthesize _ _ _ => true
  | _ => false
  end.

(** The event is a call of [sf.write]. *)
Definition is_write_call (ev : event) : bool :=
  match ev with
  | CallSfWrite _ _ _ => true
  | _ => false
  end.

(** The event is a call of the [TTS] constructor. *)
Definition is_constructor_call (ev : event) : bool :=
  match ev with
  | CallTTS _ _ => true
  | _ => false
  end.

(** What the two collaborator calls in the [try] block of [load_model]
    come to: the device probe, then the constructor on that device. *)
Definition construct_model : result PyExc TTS :=
  match cuda_is_available ext with
  | Raises e => Raises e
  | Returns available =>
      TTS_new ext "en" (if (available : bool) then "cuda" else "cpu")
  end.

(** ** The synthesis endpoint on a stdout that may refuse a line

    [print] writes to [sys.stdout], and the write raises when the stream
    cannot take the line: [UnicodeEncodeError] for a character outside its
    encoding, [OSError] for a closed pipe. [out line] is what the write of
    [line] does; nothing is printed when it raises. [traceback.print_exc]
    writes to [sys.stderr], which escapes what it cannot encode. *)
Definition print_on {E} (propagate : PyExc -> E)
    (out : string -> result PyExc unit) (line : string) : M E unit :=
  fun w =>
    match out line with
    | Returns _ => emit (Stdout line) w
    | Raises e => (Raises (propagate e), w)
    end.

(** The [try] block of [generate_speech]. *)
Definition generate_speech_body_on (out : string -> result PyExc unit)
    (request : TTSRequest) : M PyExc Response :=
  print_on (fun e => e) out
    (log_tag ++ " Received TTS request for voice: "
       ++ voice_name request ++ ", text: '"
       ++ slice_to 50 (text request) ++ "...'") ;;
  model <- getattr_model_instance "synthesize" ;;
  audio_data_np <-
    call (CallSynthesize model (text request) (voice_name request))
         (synthesize ext model (text request) (voice_name request)) ;;
  let output_buffer := BytesIO_init in
  model' <- getattr_model_instance "hps" ;;
  let samplerate := sampling_rate (data (hps model')) in
  written <-
    call (CallSfWrite audio_data_np samplerate "WAV")
         (sf_write ext audio_data_np samplerate "WAV") ;;
  let output_buffer := mkBytesIO written (length written) in
  let output_buffer := BytesIO_seek output_buffer 0 in
  print_on (fun e => e) out (log_tag ++ " Successfully generated audio.") ;;
  ret (Response_init (BytesIO_getvalue output_buffer) "audio/wav").

(** The [except Exception as e] block of [generate_speech]; an exception
    raised in it leaves the handler. *)
Definition generate_speech_handler_on (out : string -> result PyExc unit)
    (e : PyExc) : M raised Response :=
  print_on Uncaught out
    (log_tag ++ " ERROR during TTS generation: " ++ exc_str e) ;;
  traceback_print_exc e ;;
  raise (HTTPException 500
           ("TTS generation failed: " ++ exc_str e
              ++ ". Check server logs for details.")).

(** The [except] clause of [generate_speech] meeting [e]. *)
Definition generate_speech_except_on (out : string -> result PyExc unit)
    (e : PyExc) : M raised Response :=
  try_except_Exception Uncaught (raise e) (generate_speech_handler_on out).

(** [@app.post("/tts") async def generate_speech(request: TTSRequest)] *)
Definition generate_speech_on (out : string -> result PyExc unit)
    (request : TTSRequest) : M raised Response :=
  le <- get_loading_error ;;
  if bool_opt_str le then
    raise (HTTPException 503
             ("Service Unavailable: Model failed to load: "
                ++ format_opt_str le))
  else
    mi <- get_model_instance ;;
    if negb (bool_opt_TTS mi) then
      raise (HTTPException 503
               "Service Unavailable: MeloTTS model is still loading. Please try again shortly.")
    else if negb (bool_str (text request)) then
      raise (HTTPException 400 "Text input is required.")
    else
      try_except_Exception Uncaught
        (generate_speech_body_on out request)
        (generate_speech_handler_on out).

(** ** The application as the server drives it *)

(** One inbound request. *)
Inductive request : Type :=
| GET_root
| POST_tts (body : TTSRequest).

(** The world after one request has been handled. *)
Definition handle (rq : request) (w : World) : World :=
  match rq with
  | GET_root => snd (read_root (E := raised) w)
  | POST_tts body => snd (generate_speech body w)
  end.

(** Requests handled one after the other. *)
Fixpoint serve (rqs : list request) (w : World) : World :=
  match rqs with
  | [] => w
  | rq :: rqs' => serve rqs' (handle rq w)
  end.

(** The process: import-time globals, the startup hook once, then
    requests. *)
Definition startup : World := snd (load_model (mkWorld initial_globals [])).

End Program.

(** ** What the framework sends for a handler's outcome

    A returned [dict] is sent as JSON with status 200; a returned
    [Response] is sent as it is; [HTTPException(c, d)] becomes status [c]
    with body [{"detail": d}]; any other exception is not the route's to
    answer. *)
Inductive reply_body : Type :=
| JSONBody (d : dict)
| RawBody (b : list byte).

Record HTTPReply : Type := mkHTTPReply {
  reply_status : Z;
  reply_content_type : option string;
  reply_payload : reply_body
}.

Definition reply_of_dict (d : dict) : HTTPReply :=
  mkHTTPReply 200 (Some "application/json") (JSONBody d).

Definition reply_of_Response (r : Response) : HTTPReply :=
  mkHTTPReply (resp_status_code r) (media_type r) (RawBody (content r)).

Definition route_reply {A} (render : A -> HTTPReply) (r : result raised A)
  : option HTTPReply :=
  match r with
  | Returns a => Some (render a)
  | Raises (HTTPException c d) =>
      Some (mkHTTPReply c (Some "application/json") (JSONBody [("detail", d)]))
  | Raises (Uncaught _) => None
  end.

(** The status line of a reply, when the route produced one. *)
Definition status_of {A} (render : A -> HTTPReply) (r : result raised A)
  : option Z :=
  option_map reply_status (route_reply render r).

(** ** Concrete collaborators for the examples *)

Definition RuntimeError (msg : string) : PyExc :=
  mkPyExc "RuntimeError" true msg.

Definition demo_model : TTS := mkTTS (mkHParams (mkDataConfig 44100)).
Definition demo_samples : list Z := [0; 12; -7; 3].
Definition demo_wav : list byte := [x52; x49; x46; x46].

(** A CPU-only host with no [RENDER_INSTANCE_ID], whose constructor,
    synthesis and encoder behave as given. *)
Definition demo (load : result PyExc TTS)
    (synth : string -> string -> result PyExc (list Z))
    (write : result PyExc (list byte)) : Collaborators (list Z) :=
  mkCollaborators (list Z)
    (fun _ => None)
    (Returns false)
    (fun _ _ => load)
    (fun _ => synth)
    (fun _ _ _ => write).

Definition demo_ok : Collaborators (list Z) :=
  demo (Returns demo_model) (fun _ _ => Returns demo_samples) (Returns demo_wav).

(** The same host with a [synthesize] that raises [e]. *)
Definition demo_synthesize_raises (e : PyExc) : Collaborators (list Z) :=
  demo (Returns demo_model) (fun _ _ => Raises e) (Returns demo_wav).

(** The same host with an encoder that raises [e]. *)
Definition demo_write_raises (e : PyExc) : Collaborators (list Z) :=
  demo (Returns demo_model) (fun _ _ => Returns demo_samples) (Raises e).

(** The same host with a constructor that raises [e]. *)
Definition demo_load_raises (e : PyExc) : Collaborators (list Z) :=
  demo (Raises e) (fun _ _ => Returns demo_samples) (Returns demo_wav).

Definition hello_request : TTSRequest := TTSRequest_init "Hello world" None.
Definition empty_request : TTSRequest := TTSRequest_init EmptyString None.

(** A stdout that takes every line. *)
Definition any_stdout (line : string) : result PyExc unit := Returns tt.










Definition ready_world : World (ndarray := list Z) :=
  mkWorld (mkGlobals (Some demo_model) None) [].
Definition unloaded_world : World (ndarray := list Z) :=
  mkWorld initial_globals [].
Definition failed_world : World (ndarray := list Z) :=
  mkWorld (mkGlobals None (Some "Failed to load MeloTTS model: out of memory")) [].
Definition failed_with_model_world : World (ndarray := list Z) :=
  mkWorld (mkGlobals (Some demo_model)
                     (Some "Failed to load MeloTTS model: out of memory")) [].

(** * Properties *)

Lemma contains_suffix (pre s : string) : contains (pre ++ s) s.
Proof.
  exists pre, EmptyString. f_equal.
  induction s as [|c s IH]; simpl; [reflexivity | now rewrite <- IH].
Qed.


Lemma bool_str_true_iff (s : string) : bool_str s = true <-> s <> EmptyString.
Proof. destruct s; simpl; split; congruence. Qed.

(** One step of the monad, strings left alone. *)
Ltac step :=
  cbv beta iota zeta delta
    [generate_speech read_root generate_speech_body generate_speech_handler
     load_model getattr_model_instance try_except_Exception call bind
     get_loading_error get_model_instance set_loading_error
     set_model_instance raise ret print traceback_print_exc emit
     globals trace model_instance loading_error negb bool_opt_TTS].

Ltac tidy :=
  unfold logged, synthesize_events, received_line, write_event,
    success_event, error_events;
  cbn [globals trace app]; rewrite <- ?app_assoc; cbn [app].

Section Handlers.

Context {ndarray : Type}.
Variable ext : Collaborators ndarray.

Implicit Types (w : World (ndarray := ndarray)) (request : TTSRequest).

Lemma logged_nil w : logged w [] = w.
Proof. destruct w as [g t]. unfold logged. cbn [globals trace]. now rewrite app_nil_r. Qed.

Lemma logged_logged w evs evs' :
  logged (logged w evs) evs' = logged w (evs ++ evs').
Proof. unfold logged. cbn [globals trace]. now rewrite app_assoc. Qed.

(** *** The three guards of [generate_speech] *)

Lemma generate_speech_failed request w :
  bool_opt_str (loading_error (globals w)) = true ->
  generate_speech ext request w =
  (Raises (HTTPException 503
             ("Service Unavailable: Model failed to load: "
                ++ format_opt_str (loading_error (globals w)))), w).
Proof. intros H. destruct w as [[mi le] t]. step. cbn in H. now rewrite H. Qed.

Lemma generate_speech_unloaded request w :
  bool_opt_str (loading_error (globals w)) = false ->
  model_instance (globals w) = None ->
  generate_speech ext request w =
  (Raises (HTTPException 503
             "Service Unavailable: MeloTTS model is still loading. Please try again shortly."), w).
Proof.
  intros H1 H2. destruct w as [[mi le] t]. cbn in H1, H2. subst mi.
  step. now rewrite H1.
Qed.

Lemma generate_speech_empty_text request w model :
  bool_opt_str (loading_error (globals w)) = false ->
  model_instance (globals w) = Some model ->
  text request = EmptyString ->
  generate_speech ext request w =
  (Raises (HTTPException 400 "Text input is required."), w).
Proof.
  intros H1 H2 H3. destruct w as [[mi le] t]. cbn in H1, H2. subst mi.
  step. now rewrite H1, H3.
Qed.

Lemma generate_speech_enters_try request w model :
  bool_opt_str (loading_error (globals w)) = false ->
  model_instance (globals w) = Some model ->
  text request <> EmptyString ->
  generate_speech ext request w =
  try_except_Exception Uncaught (generate_speech_body ext request)
    (generate_speech_handler ext) w.
Proof.
  intros H1 H2 H3. apply bool_str_true_iff in H3.
  destruct w as [[mi le] t]. cbn in H1, H2. subst mi.
  unfold generate_speech, bind, get_loading_error, get_model_instance.
  cbn [globals loading_error model_instance bool_opt_TTS negb].
  now rewrite H1, H3.
Qed.

(** *** The [try] block, step by step *)

Lemma body_synthesize_raises request w model e :
  model_instance (globals w) = Some model ->
  synthesize ext model (text request) (voice_name request) = Raises e ->
  generate_speech_body ext request w =
  (Raises e, logged w (synthesize_events ext request model)).
Proof.
  intros Hm Hs. destruct w as [[mi le] t]. cbn in Hm. subst mi.
  step. rewrite Hs. now tidy.
Qed.

Lemma body_write_raises request w model audio e :
  model_instance (globals w) = Some model ->
  synthesize ext model (text request) (voice_name request) = Returns audio ->
  sf_write ext audio (sampling_rate (data (hps model))) "WAV" = Raises e ->
  generate_speech_body ext request w =
  (Raises e,
   logged w (synthesize_events ext request model ++ [write_event audio model])).
Proof.
  intros Hm Hs Hw. destruct w as [[mi le] t]. cbn in Hm. subst mi.
  step. rewrite Hs. step. rewrite Hw. now tidy.
Qed.

Lemma body_returns request w model audio wav :
  model_instance (globals w) = Some model ->
  synthesize ext model (text request) (voice_name request) = Returns audio ->
  sf_write ext audio (sampling_rate (data (hps model))) "WAV" = Returns wav ->
  generate_speech_body ext request w =
  (Returns (Response_init wav "audio/wav"),
   logged w (synthesize_events ext request model
               ++ [write_event audio model; success_event ext])).
Proof.
  intros Hm Hs Hw. destruct w as [[mi le] t]. cbn in Hm. subst mi.
  step. rewrite Hs. step. rewrite Hw. now tidy.
Qed.

(** Whatever the collaborators do, the [try] block starts by logging the
    request and calling [synthesize] with the request's own fields, and
    never assigns a global. *)
Lemma body_starts_with_synthesize request w model :
  model_instance (globals w) = Some model ->
  exists r rest,
    generate_speech_body ext request w =
    (r, logged w (synthesize_events ext request model ++ rest)).
Proof.
  intros Hm.
  destruct (synthesize ext model (text request) (voice_name request))
    as [audio|e] eqn:Hs.
  - destruct (sf_write ext audio (sampling_rate (data (hps model))) "WAV")
      as [wav|e] eqn:Hw.
    + rewrite (body_returns _ _ _ _ _ Hm Hs Hw). now eexists _, _.
    + rewrite (body_write_raises _ _ _ _ _ Hm Hs Hw). now eexists _, _.
  - rewrite (body_synthesize_raises _ _ _ _ Hm Hs).
    exists (Raises e), []. now rewrite app_nil_r.
Qed.

(** The [except] block: two log entries, then the 500. *)
Lemma handler_maps_to_500 e w :
  generate_speech_handler ext e w =
  (Raises (HTTPException 500
             ("TTS generation failed: " ++ exc_str e
                ++ ". Check server logs for details.")),
   logged w (error_events ext e)).
Proof. destruct w as [g t]. step. now tidy. Qed.

(** *** The [try] statement as a whole *)

Lemma generate_speech_try_returns request w model r w' :
  bool_opt_str (loading_error (globals w)) = false ->
  model_instance (globals w) = Some model ->
  text request <> EmptyString ->
  generate_speech_body ext request w = (Returns r, w') ->
  generate_speech ext request w = (Returns r, w').
Proof.
  intros H1 H2 H3 Hb.
  rewrite (generate_speech_enters_try _ _ _ H1 H2 H3).
  unfold try_except_Exception. now rewrite Hb.
Qed.

Lemma generate_speech_try_raises request w model e w' :
  bool_opt_str (loading_error (globals w)) = false ->
  model_instance (globals w) = Some model ->
  text request <> EmptyString ->
  generate_speech_body ext request w = (Raises e, w') ->
  generate_speech ext request w =
  if isinstance_Exception e then
    (Raises (HTTPException 500
               ("TTS generation failed: " ++ exc_str e
                  ++ ". Check server logs for details.")),
     logged w' (error_events ext e))
  else (Raises (Uncaught e), w').
Proof.
  intros H1 H2 H3 Hb.
  rewrite (generate_speech_enters_try _ _ _ H1 H2 H3).
  unfold try_except_Exception. rewrite Hb.
  destruct (isinstance_Exception e); [apply handler_maps_to_500 | reflexivity].
Qed.

(** A handler run only ever appends to the trace. *)
Lemma generate_speech_appends request w :
  exists evs, snd (generate_speech ext request w) = logged w evs.
Proof.
  destruct (bool_opt_str (loading_error (globals w))) eqn:H1.
  { exists []. now rewrite generate_speech_failed, logged_nil. }
  destruct (model_instance (globals w)) as [model|] eqn:H2.
  2:{ exists []. now rewrite generate_speech_unloaded, logged_nil. }
  destruct (text request) as [|c s] eqn:H3.
  { exists []. now rewrite (generate_speech_empty_text _ _ _ H1 H2 H3), logged_nil. }
  assert (H3' : text request <> EmptyString) by (rewrite H3; discriminate).
  destruct (body_starts_with_synthesize request w model H2) as (r & rest & Hb).
  destruct r as [resp|e].
  - rewrite (generate_speech_try_returns _ _ _ _ _ H1 H2 H3' Hb). now eexists.
  - rewrite (generate_speech_try_raises _ _ _ _ _ H1 H2 H3' Hb).
    destruct (isinstance_Exception e); cbn [snd].
    + rewrite logged_logged. now eexists.
    + now eexists.
Qed.

Lemma generate_speech_preserves_globals request w :
  globals (snd (generate_speech ext request w)) = globals w.
Proof.
  destruct (generate_speech_appends request w) as (evs & ->). reflexivity.
Qed.

Lemma read_root_unchanged (E : Type) w :
  snd (read_root (E := E) w) = w.
Proof.
  destruct w as [[mi le] t]. step.
  destruct (bool_opt_str le); [reflexivity|]. now destruct mi.
Qed.

Lemma handle_preserves_globals rq w :
  globals (handle ext rq w) = globals w.
Proof.
  destruct rq as [|body]; unfold handle.
  - now rewrite read_root_unchanged.
  - apply generate_speech_preserves_globals.
Qed.

Lemma logged_inv w evs : logged w evs = w -> evs = [].
Proof.
  destruct w as [g t]. unfold logged. cbn [globals trace]. intros [= H].
  apply (app_inv_head t). now rewrite app_nil_r.
Qed.

End Handlers.

Section Startup.

Context {ndarray : Type}.
Variable ext : Collaborators ndarray.

Implicit Types (w : World (ndarray := ndarray)).

Lemma load_model_success w model :
  construct_model ext = Returns model ->
  exists evs,
    load_model ext w =
    (Returns tt,
     mkWorld (mkGlobals (Some model) (loading_error (globals w)))
             (trace w ++ evs)).
Proof.
  unfold construct_model. intros H. destruct w as [[mi le] t].
  destruct (cuda_is_available ext) as [b|e] eqn:Hc; [|discriminate].
  step. rewrite Hc. step. rewrite H.
  cbn [globals trace loading_error]. rewrite <- !app_assoc. now eexists.
Qed.

Lemma load_model_caught w e :
  construct_model ext = Raises e ->
  isinstance_Exception e = true ->
  exists evs,
    load_model ext w =
    (Returns tt,
     mkWorld (mkGlobals (model_instance (globals w))
                (Some ("Failed to load MeloTTS model: " ++ exc_str e)))
             (trace w ++ evs
                ++ [Stdout (log_tag ext ++ " ERROR: "
                             ++ "Failed to load MeloTTS model: " ++ exc_str e)])).
Proof.
  unfold construct_model. intros H He. destruct w as [[mi le] t].
  destruct (cuda_is_available ext) as [b|e'] eqn:Hc.
  - step. rewrite Hc. step. rewrite H, He.
    cbn [globals trace model_instance format_opt_str].
    rewrite <- !app_assoc. now eexists [_; _; _; _].
  - injection H as ->. step. rewrite Hc, He.
    cbn [globals trace model_instance format_opt_str].
    rewrite <- !app_assoc. now eexists [_; _].
Qed.

Lemma load_model_propagates w e :
  construct_model ext = Raises e ->
  isinstance_Exception e = false ->
  exists evs,
    load_model ext w = (Raises e, logged w evs).
Proof.
  unfold construct_model. intros H He. destruct w as [[mi le] t].
  destruct (cuda_is_available ext) as [b|e'] eqn:Hc.
  - step. rewrite Hc. step. rewrite H, He. unfold logged.
    cbn [globals trace]. rewrite <- !app_assoc. now eexists.
  - injection H as ->. step. rewrite Hc, He. unfold logged.
    cbn [globals trace]. rewrite <- !app_assoc. now eexists.
Qed.

(** The hook never assigns [None], and the message it stores is never
    empty. *)
Lemma load_model_keeps_set_fields w :
  let g' := globals (snd (load_model ext w)) in
  (model_instance (globals w) <> None -> model_instance g' <> None) /\
  (bool_opt_str (loading_error (globals w)) = true ->
   bool_opt_str (loading_error g') = true).
Proof.
  destruct (construct_model ext) as [model|e] eqn:H.
  - destruct (load_model_success w model H) as (evs & ->). cbn. split.
    + discriminate.
    + trivial.
  - destruct (isinstance_Exception e) eqn:He.
    + destruct (load_model_caught w e H He) as (evs & ->). cbn. split.
      * trivial.
      * reflexivity.
    + destruct (load_model_propagates w e H He) as (evs & ->). cbn. split; trivial.
Qed.

End Startup.

(** One step of the monad on any stdout. *)
Ltac step_on :=
  cbv beta iota zeta delta
    [generate_speech_on generate_speech_body_on generate_speech_handler_on
     generate_speech_except_on print_on
     generate_speech generate_speech_body generate_speech_handler
     getattr_model_instance try_except_Exception call bind
     get_loading_error get_model_instance raise ret print
     traceback_print_exc emit
     globals trace model_instance loading_error negb bool_opt_TTS].

Section Stdout.

Context {ndarray : Type}.
Variable ext : Collaborators ndarray.
Variable out : string -> result PyExc unit.

Implicit Types (w : World (ndarray := ndarray)) (request : TTSRequest).

(** The [except] block prints its error line first; when that write
    raises, the new exception leaves the handler and no 500 is raised. *)
Lemma handler_on_run e w :
  generate_speech_handler_on ext out e w =
  match out (log_tag ext ++ " ERROR during TTS generation: " ++ exc_str e) with
  | Returns _ =>
      (Raises (HTTPException 500
                 ("TTS generation failed: " ++ exc_str e
                    ++ ". Check server logs for details.")),
       logged w (error_events ext e))
  | Raises e' => (Raises (Uncaught e'), w)
  end.
Proof.
  destruct w as [g t]. step_on.
  destruct (out (log_tag ext ++ " ERROR during TTS generation: " ++ exc_str e));
    [now tidy | reflexivity].
Qed.

Lemma except_on_run e w :
  generate_speech_except_on ext out e w =
  if isinstance_Exception e then generate_speech_handler_on ext out e w
  else (Raises (Uncaught e), w).
Proof. reflexivity. Qed.

(** Every way a request can go, on any stdout. *)
Lemma generate_speech_on_run request w :
  generate_speech_on ext out request w =
  if bool_opt_str (loading_error (globals w)) then
    (Raises (HTTPException 503
               ("Service Unavailable: Model failed to load: "
                  ++ format_opt_str (loading_error (globals w)))), w)
  else
    match model_instance (globals w) with
    | None =>
        (Raises (HTTPException 503
                   "Service Unavailable: MeloTTS model is still loading. Please try again shortly."), w)
    | Some model =>
        if bool_str (text request) then
          match out (received_line ext request) with
          | Raises e => generate_speech_except_on ext out e w
          | Returns _ =>
              match synthesize ext model (text request) (voice_name request) with
              | Raises e =>
                  generate_speech_except_on ext out e
                    (logged w (synthesize_events ext request model))
              | Returns audio =>
                  match sf_write ext audio
                          (sampling_rate (data (hps model))) "WAV" with
                  | Raises e =>
                      generate_speech_except_on ext out e
                        (logged w (synthesize_events ext request model
                                     ++ [write_event audio model]))
                  | Returns wav =>
                      match out (log_tag ext ++ " Successfully generated audio.") with
                      | Raises e =>
                          generate_speech_except_on ext out e
                            (logged w (synthesize_events ext request model
                                         ++ [write_event audio model]))
                      | Returns _ =>
                          (Returns (Response_init wav "audio/wav"),
                           logged w (synthesize_events ext request model
                                       ++ [write_event audio model;
                                           success_event ext]))
                      end
                  end
              end
          end
        else (Raises (HTTPException 400 "Text input is required."), w)
    end.
Proof.
  destruct w as [[mi le] t]. cbn [globals loading_error model_instance].
  unfold generate_speech_on, bind, get_loading_error, get_model_instance.
  cbn [globals loading_error model_instance].
  destruct (bool_opt_str le); [reflexivity|].
  destruct mi as [model|]; [|reflexivity]. cbn [bool_opt_TTS negb].
  destruct (bool_str (text request)); [|reflexivity]. cbn [negb].
  unfold received_line.
  unfold try_except_Exception at 1.
  destruct (out (log_tag ext ++ " Received TTS request for voice: "
                   ++ voice_name request ++ ", text: '"
                   ++ slice_to 50 (text request) ++ "...'")) as [u|e] eqn:Ho.
  2:{ step_on. rewrite Ho. reflexivity. }
  destruct (synthesize ext model (text request) (voice_name request))
    as [audio|e] eqn:Hs.
  2:{ step_on. rewrite Ho. step_on. rewrite Hs.
      unfold logged, synthesize_events, received_line.
      cbn [globals trace]. now rewrite <- !app_assoc. }
  destruct (sf_write ext audio (sampling_rate (data (hps model))) "WAV")
    as [wav|e] eqn:Hw.
  2:{ step_on. rewrite Ho. step_on. rewrite Hs. step_on. rewrite Hw.
      unfold logged, synthesize_events, received_line, write_event.
      cbn [globals trace]. now rewrite <- !app_assoc. }
  destruct (out (log_tag ext ++ " Successfully generated audio."))
    as [u'|e] eqn:Ho'.
  - step_on. rewrite Ho. step_on. rewrite Hs. step_on. rewrite Hw, Ho'.
    unfold logged, synthesize_events, received_line, write_event,
      success_event.
    cbn [globals trace]. now rewrite <- !app_assoc.
  - step_on. rewrite Ho. step_on. rewrite Hs. step_on. rewrite Hw, Ho'.
    unfold logged, synthesize_events, received_line, write_event.
    cbn [globals trace]. now rewrite <- !app_assoc.
Qed.

End Stdout.

(** On a stdout that takes every line the handler is [generate_speech]. *)
Lemma generate_speech_on_any_stdout {ndarray : Type}
    (ext : Collaborators ndarray) (request : TTSRequest)
    (w : World (ndarray := ndarray)) :
  generate_speech_on ext any_stdout request w = generate_speech ext request w.
Proof. reflexivity. Qed.

(** Split on everything the outcome of a request depends on, on any
    stdout. *)
Ltac stdout_cases ext out request model :=
  repeat match goal with
  | |- context [match out ?l with _ => _ end] =>
      destruct (out l) eqn:?
  | |- context [match synthesize ext model ?t ?v with _ => _ end] =>
      destruct (synthesize ext model t v) eqn:?
  | |- context [match sf_write ext ?a ?r ?f with _ => _ end] =>
      destruct (sf_write ext a r f) eqn:?
  | |- context [generate_speech_except_on ext out ?e ?w] =>
      rewrite (except_on_run ext out e w)
  | |- context [if isinstance_Exception ?e then _ else _] =>
      destruct (isinstance_Exception e) eqn:?
  | |- context [generate_speech_handler_on ext out ?e ?w] =>
      rewrite (handler_on_run ext out e w)
  end.

(** ** The process run on the example host *)

Example startup_loads_model :
  globals (startup demo_ok) = mkGlobals (Some demo_model) None.
Proof. reflexivity. Qed.

Example startup_trace :
  trace (startup demo_ok) =
  [Stdout "[local] Starting model loading...";
   CallCudaIsAvailable;
   Stdout "[local] Attempting to load MeloTTS model on device: cpu";
   CallTTS "en" "cpu";
   Stdout "[local] MeloTTS model loaded successfully."].
Proof. reflexivity. Qed.

Example startup_records_failure :
  startup (demo_load_raises (RuntimeError "out of memory")) =
  mkWorld
    (mkGlobals None (Some "Failed to load MeloTTS model: out of memory"))
    [Stdout "[local] Starting model loading...";
     CallCudaIsAvailable;
     Stdout "[local] Attempting to load MeloTTS model on device: cpu";
     CallTTS "en" "cpu";
     Stdout "[local] ERROR: Failed to load MeloTTS model: out of memory"].
Proof. reflexivity. Qed.

Example status_after_startup :
  fst (read_root (E := raised) (startup demo_ok)) =
  Returns [("status", "ready");
           ("message", "MeloTTS API is running and model is loaded.")].
Proof. reflexivity. Qed.

Example hello_world_after_startup :
  generate_speech demo_ok hello_request ready_world =
  (Returns (mkResponse demo_wav 200 (Some "audio/wav")),
   mkWorld (mkGlobals (Some demo_model) None)
     [Stdout "[local] Received TTS request for voice: EN-US, text: 'Hello world...'";
      CallSynthesize demo_model "Hello world" "EN-US";
      CallSfWrite demo_samples 44100 "WAV";
      Stdout "[local] Successfully generated audio."]).
Proof. reflexivity. Qed.

Example encoder_failure_is_500 :
  generate_speech (demo_write_raises (RuntimeError "bad format"))
    hello_request ready_world =
  (Raises (HTTPException 500
             "TTS generation failed: bad format. Check server logs for details."),
   mkWorld (mkGlobals (Some demo_model) None)
     [Stdout "[local] Received TTS request for voice: EN-US, text: 'Hello world...'";
      CallSynthesize demo_model "Hello world" "EN-US";
      CallSfWrite demo_samples 44100 "WAV";
      Stdout "[local] ERROR during TTS generation: bad format";
      Traceback (RuntimeError "bad format")]).
Proof. reflexivity. Qed.

Example requests_leave_globals_alone :
  globals (serve demo_ok
             [GET_root; POST_tts empty_request; POST_tts hello_request; GET_root]
             (startup demo_ok)) =
  globals (startup demo_ok).
Proof. reflexivity. Qed.

(** * The claims *)

(** C1. The synthesis handler tests its preconditions in a fixed order and
    stops at the first that fails: a stored loading error answers 503 with
    that message; otherwise a missing model answers 503 "still loading";
    otherwise an empty text answers 400. In each of these the handler
    leaves the world as it found it, and [synthesize] is called in a
    request exactly when all three tests pass. *)
Theorem generate_speech_checks_in_order {ndarray : Type}
    (ext : Collaborators ndarray) (request : TTSRequest)
    (w : World (ndarray := ndarray)) :
  (forall m, loading_error (globals w) = Some m -> m <> EmptyString ->
     generate_speech ext request w =
     (Raises (HTTPException 503
                ("Service Unavailable: Model failed to load: " ++ m)), w))
  /\
  (bool_opt_str (loading_error (globals w)) = false ->
   model_instance (globals w) = None ->
     generate_speech ext request w =
     (Raises (HTTPException 503
                "Service Unavailable: MeloTTS model is still loading. Please try again shortly."), w))
  /\
  (bool_opt_str (loading_error (globals w)) = false ->
   model_instance (globals w) <> None ->
   text request = EmptyString ->
     generate_speech ext request w =
     (Raises (HTTPException 400 "Text input is required."), w))
  /\
  ((exists evs, snd (generate_speech ext request w) = logged w evs
                /\ existsb is_synthesize_call evs = true)
   <->
   bool_opt_str (loading_error (globals w)) = false
   /\ model_instance (globals w) <> None
   /\ text request <> EmptyString).
Proof.
  repeat split.
  - intros m Hm Hne.
    rewrite generate_speech_failed.
    + now rewrite Hm.
    + rewrite Hm. now apply bool_str_true_iff.
  - apply generate_speech_unloaded.
  - intros H1 H2 H3.
    destruct (model_instance (globals w)) as [model|] eqn:Hm; [|congruence].
    now apply generate_speech_empty_text with (model := model).
  - destruct H as (evs & Hw & Hcall).
    destruct (bool_opt_str (loading_error (globals w))) eqn:H1; [|reflexivity].
    rewrite generate_speech_failed in Hw by assumption. cbn [snd] in Hw.
    symmetry in Hw. apply logged_inv in Hw. subst evs. discriminate.
  - destruct H as (evs & Hw & Hcall). intros Hm.
    destruct (bool_opt_str (loading_error (globals w))) eqn:H1.
    + rewrite generate_speech_failed in Hw by assumption. cbn [snd] in Hw.
      symmetry in Hw. apply logged_inv in Hw. subst evs. discriminate.
    + rewrite generate_speech_unloaded in Hw by assumption. cbn [snd] in Hw.
      symmetry in Hw. apply logged_inv in Hw. subst evs. discriminate.
  - destruct H as (evs & Hw & Hcall). intros Ht.
    destruct (bool_opt_str (loading_error (globals w))) eqn:H1.
    + rewrite generate_speech_failed in Hw by assumption. cbn [snd] in Hw.
      symmetry in Hw. apply logged_inv in Hw. subst evs. discriminate.
    + destruct (model_instance (globals w)) as [model|] eqn:Hm.
      * rewrite (generate_speech_empty_text _ _ _ _ H1 Hm Ht) in Hw.
        cbn [snd] in Hw.
        symmetry in Hw. apply logged_inv in Hw. subst evs. discriminate.
      * rewrite generate_speech_unloaded in Hw by assumption. cbn [snd] in Hw.
        symmetry in Hw. apply logged_inv in Hw. subst evs. discriminate.
  - intros (H1 & H2 & H3).
    destruct (model_instance (globals w)) as [model|] eqn:Hm; [|congruence].
    destruct (body_starts_with_synthesize ext request w model Hm)
      as (r & rest & Hb).
    destruct r as [resp|e].
    + rewrite (generate_speech_try_returns _ _ _ _ _ _ H1 Hm H3 Hb).
      eexists. split; [reflexivity|]. reflexivity.
    + rewrite (generate_speech_try_raises _ _ _ _ _ _ H1 Hm H3 Hb).
      destruct (isinstance_Exception e); cbn [snd].
      * rewrite logged_logged. eexists. split; [reflexivity|]. reflexivity.
      * eexists. split; [reflexivity|]. reflexivity.
Qed.

(** The first check wins over the third: with a stored loading error even
    an empty text is answered 503 with the stored message. *)
Lemma generate_speech_checks_in_order_witness :
  generate_speech demo_ok empty_request failed_with_model_world =
  (Raises (HTTPException 503
             "Service Unavailable: Model failed to load: Failed to load MeloTTS model: out of memory"),
   failed_with_model_world).
Proof.
  apply (proj1 (generate_speech_checks_in_order demo_ok empty_request
                  failed_with_model_world)
           "Failed to load MeloTTS model: out of memory").
  - reflexivity.
  - discriminate.
Defined.

(** C2, as the spec words it, fails: before the model is loaded an empty
    text is answered 503, not 400. *)
Lemma empty_text_before_load_is_503 :
  text empty_request = EmptyString
  /\ fst (generate_speech demo_ok empty_request unloaded_world) =
     Raises (HTTPException 503
               "Service Unavailable: MeloTTS model is still loading. Please try again shortly.")
  /\ status_of reply_of_Response
       (fst (generate_speech demo_ok empty_request unloaded_world))
     <> Some 400.
Proof. repeat split. discriminate. Qed.

(** C2, amended. A request with empty text is answered 400 when the model
    is loaded and no loading error is stored, and 503 in every other
    state. *)
Theorem empty_text_status {ndarray : Type}
    (ext : Collaborators ndarray) (request : TTSRequest)
    (w : World (ndarray := ndarray)) :
  text request = EmptyString ->
  (bool_opt_str (loading_error (globals w)) = false ->
   model_instance (globals w) <> None ->
   status_of reply_of_Response (fst (generate_speech ext request w)) = Some 400)
  /\
  (bool_opt_str (loading_error (globals w)) = true
   \/ model_instance (globals w) = None ->
   status_of reply_of_Response (fst (generate_speech ext request w)) = Some 503).
Proof.
  intros Ht. split.
  - intros H1 H2.
    destruct (model_instance (globals w)) as [model|] eqn:Hm; [|congruence].
    now rewrite (generate_speech_empty_text _ _ _ _ H1 Hm Ht).
  - intros H.
    destruct (bool_opt_str (loading_error (globals w))) eqn:H1.
    + now rewrite generate_speech_failed.
    + destruct H as [H|H]; [discriminate|].
      now rewrite generate_speech_unloaded.
Qed.

Lemma empty_text_status_witness :
  status_of reply_of_Response
    (fst (generate_speech demo_ok empty_request ready_world))
  = Some 400
  /\ status_of reply_of_Response
       (fst (generate_speech demo_ok empty_request failed_world))
     = Some 503.
Proof.
  split.
  - apply (proj1 (empty_text_status demo_ok empty_request
                    ready_world eq_refl)).
    + reflexivity.
    + discriminate.
  - apply (proj2 (empty_text_status demo_ok empty_request
                    failed_world eq_refl)).
    left. reflexivity.
Defined.

(** C3. The status payload is a function of the two globals alone: a
    stored loading error [m] gives [status = "error"] with a message that
    contains [m]; no error and no model gives [status = "loading"]; no
    error and a model gives [status = "ready"]. *)
Theorem read_root_by_state {ndarray : Type} (w : World (ndarray := ndarray)) :
  (forall m, loading_error (globals w) = Some m -> m <> EmptyString ->
     exists message,
       read_root (E := raised) w =
       (Returns [("status", "error"); ("message", message)], w)
       /\ contains message m)
  /\
  (bool_opt_str (loading_error (globals w)) = false ->
   model_instance (globals w) = None ->
     read_root (E := raised) w =
     (Returns [("status", "loading");
               ("message", "MeloTTS model is still loading or failed to load. Please try again shortly.")],
      w))
  /\
  (bool_opt_str (loading_error (globals w)) = false ->
   model_instance (globals w) <> None ->
     read_root (E := raised) w =
     (Returns [("status", "ready");
               ("message", "MeloTTS API is running and model is loaded.")],
      w))
  /\
  (forall w' : World (ndarray := ndarray),
     globals w' = globals w ->
     fst (read_root (E := raised) w') = fst (read_root (E := raised) w)).
Proof.
  destruct w as [[mi le] t]. cbn [globals loading_error model_instance].
  split; [|split; [|split]].
  - intros m -> Hne. apply bool_str_true_iff in Hne.
    exists ("API is running but model failed to load: " ++ m). split.
    + step. cbn [bool_opt_str format_opt_str]. now rewrite Hne.
    + apply contains_suffix.
  - intros H1 ->. step. now rewrite H1.
  - intros H1 H2. destruct mi as [model|]; [|congruence].
    step. now rewrite H1.
  - intros [[mi' le'] t']. cbn [globals]. intros [= -> ->].
    step. destruct (bool_opt_str le); [reflexivity|]. now destruct mi.
Qed.

Lemma read_root_by_state_witness :
  exists message,
    read_root (E := raised) failed_world =
    (Returns [("status", "error"); ("message", message)], failed_world)
    /\ contains message "Failed to load MeloTTS model: out of memory".
Proof.
  apply (proj1 (read_root_by_state failed_world)
           "Failed to load MeloTTS model: out of memory").
  - reflexivity.
  - discriminate.
Defined.

(** C8. The status handler cannot fail: in every world it returns a
    two-key payload [{status, message}], which the framework sends with
    status 200; it raises nothing and leaves the world -- globals and
    trace -- exactly as it was. *)
Theorem read_root_never_fails {ndarray : Type}
    (w : World (ndarray := ndarray)) :
  exists status message,
    read_root (E := raised) w =
    (Returns [("status", status); ("message", message)], w)
    /\ route_reply reply_of_dict (fst (read_root (E := raised) w)) =
       Some (mkHTTPReply 200 (Some "application/json")
               (JSONBody [("status", status); ("message", message)])).
Proof.
  destruct w as [[mi le] t]. step.
  destruct (bool_opt_str le).
  - now eexists _, _.
  - destruct mi; now eexists _, _.
Qed.

(** C10. A stored loading error decides both endpoints before the model
    handle is looked at: whatever [model_instance] holds, GET / reports
    [status = "error"] and POST /tts raises 503 with the stored message. *)
Theorem loading_error_takes_precedence {ndarray : Type}
    (ext : Collaborators ndarray) (request : TTSRequest)
    (mi : option TTS) (m : string) (t : list (event (ndarray := ndarray))) :
  m <> EmptyString ->
  read_root (E := raised) (mkWorld (mkGlobals mi (Some m)) t) =
  (Returns [("status", "error");
            ("message", "API is running but model failed to load: " ++ m)],
   mkWorld (mkGlobals mi (Some m)) t)
  /\
  generate_speech ext request (mkWorld (mkGlobals mi (Some m)) t) =
  (Raises (HTTPException 503
             ("Service Unavailable: Model failed to load: " ++ m)),
   mkWorld (mkGlobals mi (Some m)) t).
Proof.
  intros Hne. apply bool_str_true_iff in Hne. split.
  - step. cbn [bool_opt_str format_opt_str]. now rewrite Hne.
  - now rewrite generate_speech_failed.
Qed.

Lemma loading_error_takes_precedence_witness :
  fst (read_root (E := raised) failed_with_model_world) =
  Returns [("status", "error");
           ("message", "API is running but model failed to load: Failed to load MeloTTS model: out of memory")]
  /\
  fst (generate_speech demo_ok hello_request
         failed_with_model_world) =
  Raises (HTTPException 503
            "Service Unavailable: Model failed to load: Failed to load MeloTTS model: out of memory").
Proof.
  assert (Hne : "Failed to load MeloTTS model: out of memory" <> EmptyString)
    by discriminate.
  destruct (loading_error_takes_precedence demo_ok
              hello_request (Some demo_model)
              "Failed to load MeloTTS model: out of memory" [] Hne)
    as [Hroot Htts].
  split.
  - exact (f_equal fst Hroot).
  - exact (f_equal fst Htts).
Defined.









(** C7. No request handler assigns a global: after the status handler,
    after the synthesis handler -- whatever the collaborators return or
    raise -- and after any sequence of requests, [model_instance] and
    [loading_error] are what they were. The startup hook is the only
    writer, and it never unsets a field that is set. *)
Theorem handlers_never_write_globals {ndarray : Type}
    (ext : Collaborators ndarray) (w : World (ndarray := ndarray)) :
  globals (snd (read_root (E := raised) w)) = globals w
  /\ (forall request, globals (snd (generate_speech ext request w)) = globals w)
  /\ (forall rqs, globals (serve ext rqs w) = globals w)
  /\ (model_instance (globals w) <> None ->
      model_instance (globals (snd (load_model ext w))) <> None)
  /\ (bool_opt_str (loading_error (globals w)) = true ->
      bool_opt_str (loading_error (globals (snd (load_model ext w)))) = true).
Proof.
  split; [|split; [|split]].
  - now rewrite read_root_unchanged.
  - intros request. apply generate_speech_preserves_globals.
  - intros rqs. revert w.
    induction rqs as [|rq rqs IH]; intros w; cbn [serve].
    + reflexivity.
    + rewrite IH. apply handle_preserves_globals.
  - exact (load_model_keeps_set_fields ext w).
Qed.

Lemma handlers_never_write_globals_witness :
  model_instance
    (globals (snd (load_model (demo_load_raises (RuntimeError "again"))
                     ready_world))) <> None.
Proof.
  apply (proj1 (proj2 (proj2 (proj2
           (handlers_never_write_globals
              (demo_load_raises (RuntimeError "again")) ready_world))))).
  discriminate.
Defined.




(** * Further properties of the handlers and the startup hook *)

Section Runs.

Context {ndarray : Type}.
Variable ext : Collaborators ndarray.

Implicit Types (w : World (ndarray := ndarray)) (request : TTSRequest).

(** Every way a request with text can go in a ready service. *)
Lemma generate_speech_ready request w model :
  bool_opt_str (loading_error (globals w)) = false ->
  model_instance (globals w) = Some model ->
  text request <> EmptyString ->
  generate_speech ext request w =
  match synthesize ext model (text request) (voice_name request) with
  | Raises e =>
      if isinstance_Exception e then
        (Raises (HTTPException 500
                   ("TTS generation failed: " ++ exc_str e
                      ++ ". Check server logs for details.")),
         logged w (synthesize_events ext request model ++ error_events ext e))
      else
        (Raises (Uncaught e), logged w (synthesize_events ext request model))
  | Returns audio =>
      match sf_write ext audio (sampling_rate (data (hps model))) "WAV" with
      | Raises e =>
          if isinstance_Exception e then
            (Raises (HTTPException 500
                       ("TTS generation failed: " ++ exc_str e
                          ++ ". Check server logs for details.")),
             logged w (synthesize_events ext request model
                         ++ write_event audio model :: error_events ext e))
          else
            (Raises (Uncaught e),
             logged w (synthesize_events ext request model
                         ++ [write_event audio model]))
      | Returns wav =>
          (Returns (Response_init wav "audio/wav"),
           logged w (synthesize_events ext request model
                       ++ [write_event audio model; success_event ext]))
      end
  end.
Proof.
  intros H1 Hm H3.
  destruct (synthesize ext model (text request) (voice_name request))
    as [audio|e] eqn:Hs.
  - destruct (sf_write ext audio (sampling_rate (data (hps model))) "WAV")
      as [wav|e] eqn:Hw.
    + apply (generate_speech_try_returns ext _ _ _ _ _ H1 Hm H3).
      now apply body_returns.
    + rewrite (generate_speech_try_raises ext _ _ _ _ _ H1 Hm H3
                 (body_write_raises ext _ _ _ _ _ Hm Hs Hw)).
      destruct (isinstance_Exception e); [|reflexivity].
      now rewrite logged_logged, <- app_assoc.
  - rewrite (generate_speech_try_raises ext _ _ _ _ _ H1 Hm H3
               (body_synthesize_raises ext _ _ _ _ Hm Hs)).
    destruct (isinstance_Exception e); [|reflexivity].
    now rewrite logged_logged.
Qed.

(** The outcome of a handler is read off the globals; the trace plays no
    part in it. *)
Lemma generate_speech_outcome_by_globals request w w' :
  globals w' = globals w ->
  fst (generate_speech ext request w') = fst (generate_speech ext request w).
Proof.
  intros Hg.
  destruct (bool_opt_str (loading_error (globals w))) eqn:H1.
  { rewrite !generate_speech_failed by congruence. cbn [fst]. now rewrite Hg. }
  destruct (model_instance (globals w)) as [model|] eqn:Hm.
  2:{ now rewrite !generate_speech_unloaded by congruence. }
  destruct (text request) as [|c s] eqn:Ht.
  { rewrite (generate_speech_empty_text ext request w model) by assumption.
    now rewrite (generate_speech_empty_text ext request w' model) by congruence. }
  assert (H3 : text request <> EmptyString) by (rewrite Ht; discriminate).
  rewrite (generate_speech_ready request w model) by assumption.
  rewrite (generate_speech_ready request w' model) by congruence.
  destruct (synthesize ext model (text request) (voice_name request))
    as [audio|e].
  - destruct (sf_write ext audio (sampling_rate (data (hps model))) "WAV")
      as [wav|e]; [reflexivity|].
    now destruct (isinstance_Exception e).
  - now destruct (isinstance_Exception e).
Qed.

Lemma read_root_outcome_by_globals w w' :
  globals w' = globals w ->
  fst (read_root (E := raised) w') = fst (read_root (E := raised) w).
Proof.
  destruct w as [[mi le] t], w' as [[mi' le'] t']. cbn [globals].
  intros [= -> ->]. step.
  destruct (bool_opt_str le); [reflexivity|]. now destruct mi.
Qed.

Lemma serve_preserves_globals rqs w :
  globals (serve ext rqs w) = globals w.
Proof.
  revert w. induction rqs as [|rq rqs IH]; intros w; cbn [serve].
  - reflexivity.
  - rewrite IH. apply handle_preserves_globals.
Qed.


Lemma startup_globals_failed e :
  construct_model ext = Raises e ->
  isinstance_Exception e = true ->
  globals (startup ext) =
  mkGlobals None (Some ("Failed to load MeloTTS model: " ++ exc_str e)).
Proof.
  intros H He. unfold startup.
  now destruct (load_model_caught ext (mkWorld initial_globals []) e H He)
    as (evs & ->).
Qed.


End Runs.


(** X1. POST /tts is answered 503 exactly when the service is not ready:
    a loading error is stored or no model is loaded. In a ready service
    no request, whatever its text and whatever the collaborators do, gets
    503. *)
Theorem status_503_iff_not_ready {ndarray : Type}
    (ext : Collaborators ndarray) (request : TTSRequest)
    (w : World (ndarray := ndarray)) :
  status_of reply_of_Response (fst (generate_speech ext request w)) = Some 503
  <->
  (bool_opt_str (loading_error (globals w)) = true
   \/ model_instance (globals w) = None).
Proof.
  split.
  - intros Hs.
    destruct (bool_opt_str (loading_error (globals w))) eqn:H1;
      [now left|].
    destruct (model_instance (globals w)) as [model|] eqn:Hm; [|now right].
    exfalso.
    destruct (text request) as [|c s] eqn:Ht.
    + rewrite (generate_speech_empty_text ext _ _ _ H1 Hm Ht) in Hs.
      discriminate Hs.
    + assert (H3 : text request <> EmptyString) by (rewrite Ht; discriminate).
      rewrite (generate_speech_ready ext _ _ _ H1 Hm H3) in Hs.
      destruct (synthesize ext model (text request) (voice_name request))
        as [audio|e].
      * destruct (sf_write ext audio (sampling_rate (data (hps model))) "WAV")
          as [wav|e]; [discriminate Hs|].
        destruct (isinstance_Exception e); discriminate Hs.
      * destruct (isinstance_Exception e); discriminate Hs.
  - intros H.
    destruct (bool_opt_str (loading_error (globals w))) eqn:H1.
    + now rewrite generate_speech_failed.
    + destruct H as [H|H]; [discriminate|].
      now rewrite generate_speech_unloaded.
Qed.

Lemma status_503_iff_not_ready_witness :
  status_of reply_of_Response
    (fst (generate_speech demo_ok hello_request unloaded_world)) = Some 503.
Proof.
  apply (proj2 (status_503_iff_not_ready demo_ok hello_request unloaded_world)).
  right. reflexivity.
Defined.


(** X4. A failed load is sticky. When the device probe or the constructor
    raised an instance of [Exception] at startup, then after any number of
    requests POST /tts is still answered 503 and GET / still reports
    [status = "error"], both quoting [str(e)] behind the fixed prefixes. *)
Theorem failed_startup_is_sticky {ndarray : Type}
    (ext : Collaborators ndarray) (e : PyExc) (rqs : list request)
    (request : TTSRequest) :
  construct_model ext = Raises e ->
  isinstance_Exception e = true ->
  fst (generate_speech ext request (serve ext rqs (startup ext))) =
  Raises (HTTPException 503
            ("Service Unavailable: Model failed to load: "
               ++ "Failed to load MeloTTS model: " ++ exc_str e))
  /\
  fst (read_root (E := raised) (serve ext rqs (startup ext))) =
  Returns [("status", "error");
           ("message", "API is running but model failed to load: "
                         ++ "Failed to load MeloTTS model: " ++ exc_str e)].
Proof.
  intros H He.
  pose proof (startup_globals_failed ext e H He) as Hg.
  split.
  - rewrite (generate_speech_outcome_by_globals ext request (startup ext))
      by apply serve_preserves_globals.
    rewrite generate_speech_failed; now rewrite Hg.
  - rewrite (read_root_outcome_by_globals (startup ext))
      by apply serve_preserves_globals.
    destruct (startup ext) as [g t]. cbn [globals] in Hg. subst g.
    reflexivity.
Qed.

Lemma failed_startup_is_sticky_witness :
  fst (generate_speech (demo_load_raises (RuntimeError "out of memory"))
         hello_request
         (serve (demo_load_raises (RuntimeError "out of memory"))
            [GET_root; POST_tts hello_request; POST_tts empty_request]
            (startup (demo_load_raises (RuntimeError "out of memory"))))) =
  Raises (HTTPException 503
            "Service Unavailable: Model failed to load: Failed to load MeloTTS model: out of memory").
Proof.
  exact (proj1 (failed_startup_is_sticky
                  (demo_load_raises (RuntimeError "out of memory"))
                  (RuntimeError "out of memory")
                  [GET_root; POST_tts hello_request; POST_tts empty_request]
                  hello_request eq_refl eq_refl)).
Defined.



Section Traces.

Context {ndarray : Type}.
Variable ext : Collaborators ndarray.

Implicit Types (w : World (ndarray := ndarray)) (request : TTSRequest).

(** Every way the startup hook can go, with what it prints and calls. *)
Lemma load_model_run w :
  load_model ext w =
  match cuda_is_available ext with
  | Raises e =>
      if isinstance_Exception e then
        (Returns tt,
         mkWorld
           (mkGlobals (model_instance (globals w))
              (Some ("Failed to load MeloTTS model: " ++ exc_str e)))
           (trace w ++
            [Stdout (log_tag ext ++ " Starting model loading...");
             CallCudaIsAvailable;
             Stdout (log_tag ext ++ " ERROR: "
                       ++ "Failed to load MeloTTS model: " ++ exc_str e)]))
      else
        (Raises e,
         logged w [Stdout (log_tag ext ++ " Starting model loading...");
                   CallCudaIsAvailable])
  | Returns available =>
      match TTS_new ext "en" (if available then "cuda" else "cpu") with
      | Returns model =>
          (Returns tt,
           mkWorld
             (mkGlobals (Some model) (loading_error (globals w)))
             (trace w ++
              [Stdout (log_tag ext ++ " Starting model loading...");
               CallCudaIsAvailable;
               Stdout (log_tag ext
                         ++ " Attempting to load MeloTTS model on device: "
                         ++ (if available then "cuda" else "cpu"));
               CallTTS "en" (if available then "cuda" else "cpu");
               Stdout (log_tag ext ++ " MeloTTS model loaded successfully.")]))
      | Raises e =>
          if isinstance_Exception e then
            (Returns tt,
             mkWorld
               (mkGlobals (model_instance (globals w))
                  (Some ("Failed to load MeloTTS model: " ++ exc_str e)))
               (trace w ++
                [Stdout (log_tag ext ++ " Starting model loading...");
                 CallCudaIsAvailable;
                 Stdout (log_tag ext
                           ++ " Attempting to load MeloTTS model on device: "
                           ++ (if available then "cuda" else "cpu"));
                 CallTTS "en" (if available then "cuda" else "cpu");
                 Stdout (log_tag ext ++ " ERROR: "
                           ++ "Failed to load MeloTTS model: " ++ exc_str e)]))
          else
            (Raises e,
             logged w
               [Stdout (log_tag ext ++ " Starting model loading...");
                CallCudaIsAvailable;
                Stdout (log_tag ext
                          ++ " Attempting to load MeloTTS model on device: "
                          ++ (if available then "cuda" else "cpu"));
                CallTTS "en" (if available then "cuda" else "cpu")])
      end
  end.
Proof.
  destruct w as [[mi le] t].
  destruct (cuda_is_available ext) as [b|e] eqn:Hc.
  - destruct (TTS_new ext "en" (if b then "cuda" else "cpu")) as [model|e] eqn:Hn.
    + step. rewrite Hc. step. rewrite Hn.
      cbn [globals trace loading_error]. now rewrite <- !app_assoc.
    + step. rewrite Hc. step. rewrite Hn.
      destruct (isinstance_Exception e); unfold logged;
        cbn [globals trace model_instance format_opt_str];
        now rewrite <- !app_assoc.
  - step. rewrite Hc.
    destruct (isinstance_Exception e); unfold logged;
      cbn [globals trace model_instance format_opt_str];
      now rewrite <- !app_assoc.
Qed.

(** What a request appends to the trace, in every state. *)
Lemma generate_speech_events request w :
  snd (generate_speech ext request w) =
  logged w
    (if bool_opt_str (loading_error (globals w)) then []
     else
       match model_instance (globals w) with
       | None => []
       | Some model =>
           if bool_str (text request) then
             synthesize_events ext request model ++
             match synthesize ext model (text request) (voice_name request) with
             | Raises e =>
                 if isinstance_Exception e then error_events ext e else []
             | Returns audio =>
                 write_event audio model ::
                 match sf_write ext audio
                         (sampling_rate (data (hps model))) "WAV" with
                 | Raises e =>
                     if isinstance_Exception e then error_events ext e else []
                 | Returns _ => [success_event ext]
                 end
             end
           else []
       end).
Proof.
  destruct (bool_opt_str (loading_error (globals w))) eqn:H1.
  { rewrite generate_speech_failed by assumption. cbn [snd].
    now rewrite logged_nil. }
  destruct (model_instance (globals w)) as [model|] eqn:Hm.
  2:{ rewrite generate_speech_unloaded by assumption. cbn [snd].
      now rewrite logged_nil. }
  destruct (text request) as [|c s] eqn:Ht.
  { rewrite (generate_speech_empty_text ext _ _ _ H1 Hm Ht). cbn [snd bool_str].
    now rewrite logged_nil. }
  assert (H3 : text request <> EmptyString) by (rewrite Ht; discriminate).
  rewrite (generate_speech_ready ext _ _ _ H1 Hm H3). rewrite Ht.
  cbn [bool_str].
  destruct (synthesize ext model (String c s) (voice_name request))
    as [audio|e].
  - destruct (sf_write ext audio (sampling_rate (data (hps model))) "WAV")
      as [wav|e]; [reflexivity|].
    now destruct (isinstance_Exception e).
  - destruct (isinstance_Exception e); [reflexivity|].
    now rewrite app_nil_r.
Qed.

End Traces.

(** Split on everything a request's trace depends on. *)
Ltac trace_cases ext request w :=
  let model := fresh "model" in
  let audio := fresh "audio" in
  let e := fresh "e" in
  destruct (bool_opt_str (loading_error (globals w))) eqn:?;
  [| destruct (model_instance (globals w)) as [model|] eqn:?;
     [ destruct (bool_str (text request)) eqn:?;
       [ destruct (synthesize ext model (text request) (voice_name request))
           as [audio|e] eqn:?;
         [ destruct (sf_write ext audio (sampling_rate (data (hps model))) "WAV")
             as [?|e] eqn:?;
           [| destruct (isinstance_Exception e) eqn:? ]
         | destruct (isinstance_Exception e) eqn:? ]
       |]
     |] ].

Ltac open_events H :=
  unfold synthesize_events, write_event, error_events, success_event,
    received_line in H;
  cbn [app In] in H;
  repeat (destruct H as [H|H]).



(** Take [evs = pre ++ CallTTS _ _ :: post] apart on a known [evs]. *)
Ltac split_trace Heq pre :=
  destruct pre as [|? pre]; cbn [app] in Heq;
  [ try discriminate Heq
  | first [ discriminate Heq
          | injection Heq as ? Heq; subst; try split_trace Heq pre ] ].

(** X7. Whenever the startup hook calls the constructor, it has called
    the device probe before, the probe has returned, the language is
    ["en"] and the device is ["cuda"] when the probe said true and
    ["cpu"] when it said false. When the probe raises, the constructor is
    not called. *)
Theorem constructor_call_follows_probe {ndarray : Type}
    (ext : Collaborators ndarray) (w : World (ndarray := ndarray)) :
  exists evs,
    trace (snd (load_model ext w)) = (trace w ++ evs)%list
    /\ forall pre post language device,
         evs = (pre ++ CallTTS language device :: post)%list ->
         In CallCudaIsAvailable pre
         /\ language = "en"
         /\ exists available : bool,
              cuda_is_available ext = Returns available
              /\ device = if available then "cuda" else "cpu".
Proof.
  rewrite load_model_run.
  destruct (cuda_is_available ext) as [b|e] eqn:Hc.
  - destruct (TTS_new ext "en" (if b then "cuda" else "cpu")) as [model|e];
      [|destruct (isinstance_Exception e)];
      (eexists; split; [reflexivity|]);
      intros pre post language device Heq;
      split_trace Heq pre;
      injection Heq as <- <- <-;
      (split; [cbn [In]; auto | split; [reflexivity | now exists b]]).
  - destruct (isinstance_Exception e);
      (eexists; split; [reflexivity|]);
      intros pre post language device Heq;
      split_trace Heq pre.
Qed.

Lemma constructor_call_follows_probe_witness :
  In (CallCudaIsAvailable (ndarray := list Z))
     [Stdout "[local] Starting model loading...";
      CallCudaIsAvailable;
      Stdout "[local] Attempting to load MeloTTS model on device: cpu"]
  /\ exists available : bool,
       cuda_is_available demo_ok = Returns available
       /\ "cpu" = if available then "cuda" else "cpu".
Proof.
  destruct (constructor_call_follows_probe demo_ok unloaded_world)
    as (evs & Ht & Hcall).
  cbn in Ht. subst evs.
  destruct (Hcall
              [Stdout "[local] Starting model loading...";
               CallCudaIsAvailable;
               Stdout "[local] Attempting to load MeloTTS model on device: cpu"]
              [Stdout "[local] MeloTTS model loaded successfully."]
              "en" "cpu" eq_refl)
    as (Hin & _ & Hdev).
  split; assumption.
Defined.

(** X10. [sf.write] is only ever called on the array that [synthesize]
    returned for this request, at the loaded model's
    [hps.data.sampling_rate], in format ["WAV"]; it is not called when the
    service is not ready, when the text is empty, or when [synthesize]
    raised. *)
Theorem encoder_called_on_synthesized_audio {ndarray : Type}
    (ext : Collaborators ndarray) (request : TTSRequest)
    (w : World (ndarray := ndarray)) :
  exists evs,
    snd (generate_speech ext request w) = logged w evs
    /\ forall samples samplerate format,
         In (CallSfWrite samples samplerate format) evs ->
         exists model,
           bool_opt_str (loading_error (globals w)) = false
           /\ model_instance (globals w) = Some model
           /\ text request <> EmptyString
           /\ synthesize ext model (text request) (voice_name request) =
              Returns samples
           /\ samplerate = sampling_rate (data (hps model))
           /\ format = "WAV".
Proof.
  eexists. split; [apply generate_speech_events|].
  intros samples samplerate format Hin.
  trace_cases ext request w; open_events Hin;
    try discriminate Hin; try contradiction;
    injection Hin as <- <- <-;
    (eexists; repeat split; try eassumption; try reflexivity;
     now apply bool_str_true_iff).
Qed.

Lemma encoder_called_on_synthesized_audio_witness :
  exists model,
    model_instance (globals ready_world) = Some model
    /\ synthesize demo_ok model (text hello_request) (voice_name hello_request) =
       Returns demo_samples
    /\ 44100 = sampling_rate (data (hps model)).
Proof.
  destruct (encoder_called_on_synthesized_audio demo_ok hello_request
              ready_world) as (evs & Hw & Hcall).
  assert (Hin : In (CallSfWrite demo_samples 44100 "WAV") evs).
  { unfold logged in Hw. cbn in Hw. injection Hw as Hw. subst evs.
    cbn. auto. }
  destruct (Hcall demo_samples 44100 "WAV" Hin)
    as (model & _ & Hm & _ & Hs & Hr & _).
  now exists model.
Defined.

(** X11. POST /tts is answered 500 exactly when the handler logged a
    traceback, and the exception it logged is the one whose text the
    error line and the 500 detail carry. *)
Theorem status_500_iff_error_logged {ndarray : Type}
    (ext : Collaborators ndarray) (request : TTSRequest)
    (w : World (ndarray := ndarray)) :
  exists evs,
    snd (generate_speech ext request w) = logged w evs
    /\ (status_of reply_of_Response (fst (generate_speech ext request w)) =
        Some 500
        <-> exists e, In (Traceback e) evs)
    /\ forall e, In (Traceback e) evs ->
         In (Stdout (log_tag ext ++ " ERROR during TTS generation: "
                       ++ exc_str e)) evs
         /\ fst (generate_speech ext request w) =
            Raises (HTTPException 500
                      ("TTS generation failed: " ++ exc_str e
                         ++ ". Check server logs for details.")).
Proof.
  destruct (bool_opt_str (loading_error (globals w))) eqn:H1.
  { rewrite generate_speech_failed by assumption.
    exists []. rewrite logged_nil. split; [reflexivity|]. split.
    - split; [discriminate | intros (e & [])].
    - intros e []. }
  destruct (model_instance (globals w)) as [model|] eqn:Hm.
  2:{ rewrite generate_speech_unloaded by assumption.
      exists []. rewrite logged_nil. split; [reflexivity|]. split.
      - split; [discriminate | intros (e & [])].
      - intros e []. }
  destruct (text request) as [|c s] eqn:Ht.
  { rewrite (generate_speech_empty_text ext _ _ _ H1 Hm Ht).
    exists []. rewrite logged_nil. split; [reflexivity|]. split.
    - split; [discriminate | intros (e & [])].
    - intros e []. }
  assert (H3 : text request <> EmptyString) by (rewrite Ht; discriminate).
  rewrite (generate_speech_ready ext _ _ _ H1 Hm H3).
  destruct (synthesize ext model (text request) (voice_name request))
    as [audio|e0];
    [destruct (sf_write ext audio (sampling_rate (data (hps model))) "WAV")
       as [wav|e0]; [|destruct (isinstance_Exception e0)]
    |destruct (isinstance_Exception e0)];
    (eexists; split; [reflexivity|]; split;
     [ split;
       [ intros Hs; try discriminate Hs; exists e0;
         unfold synthesize_events, error_events; cbn [app In]; auto 10
       | intros (e & Hin); open_events Hin;
         try discriminate Hin; try contradiction; reflexivity ]
     | intros e Hin; open_events Hin;
       try discriminate Hin; try contradiction;
       injection Hin as <-;
       (split;
        [ unfold synthesize_events, error_events; cbn [app In]; auto 10
        | reflexivity ]) ]).
Qed.

Lemma status_500_iff_error_logged_witness :
  exists e,
    In (Traceback e)
       (synthesize_events (demo_synthesize_raises (RuntimeError "unknown speaker"))
          hello_request demo_model
        ++ error_events (demo_synthesize_raises (RuntimeError "unknown speaker"))
             (RuntimeError "unknown speaker")).
Proof.
  destruct (status_500_iff_error_logged
              (demo_synthesize_raises (RuntimeError "unknown speaker"))
              hello_request ready_world) as (evs & Hw & Hiff & _).
  unfold logged in Hw. cbn in Hw. injection Hw as Hw. subst evs.
  apply (proj1 Hiff). reflexivity.
Defined.

(** X12. Nothing is retried: one request calls [synthesize] at most once
    and [sf.write] at most once, and one run of the startup hook calls
    the constructor at most once. *)
Theorem collaborators_called_at_most_once {ndarray : Type}
    (ext : Collaborators ndarray) (request : TTSRequest)
    (w : World (ndarray := ndarray)) :
  (exists evs,
     snd (generate_speech ext request w) = logged w evs
     /\ (length (filter is_synthesize_call evs) <= 1)%nat
     /\ (length (filter is_write_call evs) <= 1)%nat)
  /\
  (exists evs,
     trace (snd (load_model ext w)) = (trace w ++ evs)%list
     /\ (length (filter is_constructor_call evs) <= 1)%nat).
Proof.
  split.
  - eexists. split; [apply generate_speech_events|].
    trace_cases ext request w;
      unfold synthesize_events, write_event, error_events, success_event;
      cbn [app filter is_synthesize_call is_write_call length]; lia.
  - rewrite load_model_run.
    destruct (cuda_is_available ext) as [b|e];
      [destruct (TTS_new ext "en" (if b then "cuda" else "cpu")) as [model|e];
         [|destruct (isinstance_Exception e)]
      |destruct (isinstance_Exception e)];
      (eexists; split; [reflexivity|]);
      cbn [filter is_constructor_call length]; lia.
Qed.

(** X13. The handler neither validates nor maps the voice name. In a
    ready service, on any stdout, a call of [synthesize] carries the text
    and the voice name the body was sent with, ["EN-US"] when the body
    gave none; and that call is made whenever the request line was
    printed. *)
Theorem voice_name_is_passed_through {ndarray : Type}
    (ext : Collaborators ndarray) (out : string -> result PyExc unit)
    (body_text : string) (body_voice : option string)
    (w : World (ndarray := ndarray)) (model : TTS) :
  bool_opt_str (loading_error (globals w)) = false ->
  model_instance (globals w) = Some model ->
  body_text <> EmptyString ->
  exists evs,
    snd (generate_speech_on ext out (TTSRequest_init body_text body_voice) w) =
    logged w evs
    /\ (out (received_line ext (TTSRequest_init body_text body_voice)) =
        Returns tt ->
        In (CallSynthesize model body_text
              (match body_voice with Some v => v | None => "EN-US" end)) evs)
    /\ forall model' text' voice',
         In (CallSynthesize model' text' voice') evs ->
         model' = model /\ text' = body_text
         /\ voice' = match body_voice with Some v => v | None => "EN-US" end.
Proof.
  intros H1 Hm H3.
  rewrite generate_speech_on_run, H1, Hm.
  cbn [TTSRequest_init text voice_name].
  apply bool_str_true_iff in H3. rewrite H3.
  stdout_cases ext out (TTSRequest_init body_text body_voice) model;
    cbn [snd]; rewrite ?logged_logged;
    (first [ eexists; split; [reflexivity|]
           | exists []; split; [now rewrite logged_nil|] ]);
    (split;
     [ intros Ho; try discriminate Ho;
       unfold synthesize_events; cbn [app In text voice_name]; auto
     | intros model' text' voice' Hin; open_events Hin;
       try discriminate Hin; try contradiction;
       now injection Hin as <- <- <- ]).
Qed.

Lemma voice_name_is_passed_through_witness :
  exists evs,
    snd (generate_speech_on demo_ok any_stdout
           (TTSRequest_init "Bonjour" (Some "no-such-voice")) ready_world) =
    logged ready_world evs
    /\ In (CallSynthesize demo_model "Bonjour" "no-such-voice") evs.
Proof.
  destruct (voice_name_is_passed_through demo_ok any_stdout "Bonjour"
              (Some "no-such-voice") ready_world demo_model eq_refl eq_refl)
    as (evs & Hw & Hin & _).
  - discriminate.
  - exists evs. split; [exact Hw|]. now apply Hin.
Defined.

(** X14. Until the startup hook has assigned a global, every request is
    turned away the same way: after any number of requests on the
    import-time globals GET / reports [status = "loading"] and POST /tts
    is answered 503 "still loading", without a call to any collaborator. *)
Theorem before_startup_nothing_is_served {ndarray : Type}
    (ext : Collaborators ndarray) (rqs : list request)
    (request : TTSRequest) (t : list (event (ndarray := ndarray))) :
  serve ext rqs (mkWorld initial_globals t) = mkWorld initial_globals t
  /\
  generate_speech ext request (mkWorld initial_globals t) =
  (Raises (HTTPException 503
             "Service Unavailable: MeloTTS model is still loading. Please try again shortly."),
   mkWorld initial_globals t)
  /\
  read_root (E := raised) (mkWorld initial_globals t) =
  (Returns [("status", "loading");
            ("message", "MeloTTS model is still loading or failed to load. Please try again shortly.")],
   mkWorld initial_globals t).
Proof.
  split; [|split].
  - induction rqs as [|rq rqs IH]; cbn [serve]; [reflexivity|].
    destruct rq as [|body]; unfold handle.
    + now rewrite read_root_unchanged.
    + now rewrite generate_speech_unloaded.
  - now apply generate_speech_unloaded.
  - reflexivity.
Qed.
